(** * bdgenomics.workflows.tools.spark_tools: parameter assembly for Spark tools

    A shallow embedding of [spark_tools.py]: the [MasterAddress] string
    wrapper, the spark-submit parameter assembler [_make_parameters] and the
    per-tool wrappers [call_conductor], [call_adam], [call_deca],
    [call_mango_browser] and [call_mango_notebook].

    Python lists of strings are [list string]; a list that may hold a nested
    list (the "docker run" options) is a [list pyval]; [None]-able arguments
    are [option]s; the external collaborators ([dockerCall], [check_call],
    [logToMaster]) are events recorded in a trace, their exit status given by
    an oracle. *)

From Stdlib Require Import List String Ascii ZArith Bool Lia.
From Stdlib Require Import DecimalString.
Import ListNotations.

Local Open Scope string_scope.
Local Open Scope list_scope.

(** ** Python values and formatting *)

(** The values that can sit in a "docker run" option list: a string, a nested
    list, or [None]. *)
#[local] Set Warnings "-register-all".
Inductive pyval : Type :=
| PStr (s : string)
| PList (l : list pyval)
| PNone.

(** [str(n)] for a Python int, as ["%s" % n] and ["{}".format(n)] print it. *)
Definition str_of_int (n : Z) : string :=
  NilZero.string_of_int (Z.to_int n).

(** Truthiness of a [str]-or-[None] argument: [None] and [''] are falsy. *)
Definition truthy (o : option string) : bool :=
  match o with
  | Some s => negb (String.eqb s "")
  | None => false
  end.

(** ["%s" % o] for a [str]-or-[None] argument. *)
Definition str_of_opt (o : option string) : string :=
  match o with
  | Some s => s
  | None => "None"
  end.

Definition SPARK_MASTER_PORT : string := "7077".
Definition HDFS_MASTER_PORT : string := "8020".

(** ** MasterAddress *)

(** [class MasterAddress(str)]: the string value itself ([nominal]) and the
    attribute [actual]. *)
Record MasterAddress : Type := mkMasterAddress {
  nominal : string;
  actual : string
}.

(** [MasterAddress.__init__]: [self.actual = self]. *)
Definition MasterAddress_init (master_ip : string) : MasterAddress :=
  {| nominal := master_ip; actual := master_ip |}.

(** [MasterAddress.docker_parameters(self, docker_parameters=None)].  When a
    list is passed, the object returned is that same list: [append] works in
    place, so the result is also the caller's list after the call. *)
Definition docker_parameters (self : MasterAddress)
    (docker_parameters : option (list pyval)) : option (list pyval) :=
  if negb (String.eqb (nominal self) (actual self)) then
    let add_host_option := PStr ("--add-host=spark-master:" ++ actual self)%string in
    match docker_parameters with
    | None => Some [add_host_option]
    | Some l => Some (l ++ [add_host_option])
    end
  else docker_parameters.

(** A value returned by a call, as a list element. *)
Definition pyval_of_ret (r : option (list pyval)) : pyval :=
  match r with
  | Some l => PList l
  | None => PNone
  end.

(** ** Exceptions, events and the effect monad *)

Inductive exn : Type :=
| UserError (msg : string)
| CalledProcessError (returncode : Z).

Inductive event : Type :=
| EDockerCall (tool : string) (parameters : list string) (dockerParameters : list pyval)
| ECheckCall (argv : list string)
| ELogToMaster (msg : string).

(** A computation threads the trace of events issued so far and either raises
    or returns. *)
Definition M (A : Type) : Type := list event -> (exn + A) * list event.

Definition ret {A} (a : A) : M A := fun tr => (inr a, tr).

Definition bind {A B} (m : M A) (k : A -> M B) : M B :=
  fun tr =>
    match m tr with
    | (inl e, tr') => (inl e, tr')
    | (inr a, tr') => k a tr'
    end.

Definition raise {A} (e : exn) : M A := fun tr => (inl e, tr).

(** [try: m except: h] with a bare [except], which catches every exception. *)
Definition try_except {A} (m : M A) (h : M A) : M A :=
  fun tr =>
    match m tr with
    | (inl _, tr') => h tr'
    | r => r
    end.

Definition emit (e : event) : M unit := fun tr => (inr tt, tr ++ [e]).

Notation "x <- m ;; k" := (bind m (fun x => k))
  (at level 61, m at next level, right associativity).
Notation "m ;;; k" := (bind m (fun _ => k))
  (at level 61, right associativity).
Notation "' pat <- m ;; k" := (bind m (fun x => match x with pat => k end))
  (at level 61, pat pattern, m at next level, right associativity).

(** Modelled from the spec: [toil_lib.require], imported by the module and
    not part of it.  A false condition is a precondition error carrying the
    message; a true one does nothing. *)
Definition require (expression : bool) (message : string) : M unit :=
  if expression then ret tt else raise (UserError message).

(** ** The parameter assembler *)

Definition is_some {A} (o : option A) : bool :=
  match o with Some _ => true | None => false end.

Definition master_truthy (master_ip : option MasterAddress) : bool :=
  match master_ip with
  | Some m => negb (String.eqb (nominal m) "")
  | None => false
  end.

(** ["%s" % master_ip]. *)
Definition str_of_master (master_ip : option MasterAddress) : string :=
  match master_ip with
  | Some m => nominal m
  | None => "None"
  end.

Definition memory_conf (memory : Z) : list string :=
  [ "--conf"; "spark.driver.memory=" ++ str_of_int memory ++ "g";
    "--conf"; "spark.executor.memory=" ++ str_of_int memory ++ "g" ]%string.

Definition master_conf (master_ip : option MasterAddress) : list string :=
  [ "--master";
    "spark://" ++ str_of_master master_ip ++ ":" ++ SPARK_MASTER_PORT;
    "--conf";
    "spark.hadoop.fs.default.name=hdfs://" ++ str_of_master master_ip
      ++ ":" ++ HDFS_MASTER_PORT ]%string.

Definition _make_parameters (master_ip : option MasterAddress)
    (default_parameters : list string) (memory : option Z)
    (arguments : list string) (override_parameters : option (list string))
  : M (list string) :=
  require ((is_some override_parameters || is_some memory) &&
           (negb (is_some override_parameters) || negb (is_some memory)))
    "Either the memory setting must be defined or you must provide Spark configuration parameters." ;;;
  let parameters : list string := [] in
  let parameters :=
    match memory with
    | Some memory => memory_conf memory
    | None =>
        match override_parameters with
        | Some ov => parameters ++ ov
        | None => parameters (* unreachable: excluded by the check above *)
        end
    end in
  let parameters :=
    if master_truthy master_ip then parameters ++ master_conf master_ip
    else parameters in
  let parameters := parameters ++ default_parameters in
  let parameters := parameters ++ ["--"] in
  let parameters := parameters ++ arguments in
  ret parameters.


(** [os.path.join(a, b)] for a relative [b]: a separator is inserted unless
    [a] is empty or already ends with one. *)
Fixpoint ends_with_slash (s : string) : bool :=
  match s with
  | EmptyString => false
  | String c EmptyString => Ascii.eqb c "/"
  | String _ rest => ends_with_slash rest
  end.

Definition path_join (a b : string) : string :=
  if String.eqb a "" || ends_with_slash a then (a ++ b)%string
  else (a ++ "/" ++ b)%string.

(** ** The per-tool wrappers *)

Section Tools.

(** Exit status of the container run of [tool] with its arguments and
    "docker run" options, and of a local process with its argument vector. *)
Variable docker_exit : string -> list string -> list pyval -> Z.
Variable process_exit : list string -> Z.

(** The outcome of a container run and of a local process, from the exit
    status. *)
Definition docker_outcome (tool : string) (ps : list string) (dps : list pyval)
  : exn + unit :=
  if Z.eqb (docker_exit tool ps dps) 0 then inr tt
  else inl (CalledProcessError (docker_exit tool ps dps)).

Definition process_outcome (argv : list string) : exn + unit :=
  if Z.eqb (process_exit argv) 0 then inr tt
  else inl (CalledProcessError (process_exit argv)).

(** Modelled from the spec: [toil.lib.docker.dockerCall], the external
    container-run primitive: runs to completion or raises on non-zero exit. *)
Definition dockerCall (tool : string) (parameters : list string)
    (dockerParameters : list pyval) : M unit :=
  emit (EDockerCall tool parameters dockerParameters) ;;;
  let rc := docker_exit tool parameters dockerParameters in
  if Z.eqb rc 0 then ret tt else raise (CalledProcessError rc).

(** Modelled from the spec: [subprocess.check_call], the local process
    invocation: raises on non-zero exit. *)
Definition check_call (argv : list string) : M unit :=
  emit (ECheckCall argv) ;;;
  let rc := process_exit argv in
  if Z.eqb rc 0 then ret tt else raise (CalledProcessError rc).

(** Modelled from the spec: [job.fileStore.logToMaster], fire-and-forget. *)
Definition logToMaster (msg : string) : M unit :=
  emit (ELogToMaster msg).

Definition __name__ : string := "bdgenomics.workflows.tools.spark_tools".

Definition conductor_tool : string := "quay.io/ucsc_cgl/conductor".

Definition call_conductor (master_ip : MasterAddress) (src dst : string)
    (memory : option Z) (override_parameters : option (list string)) : M unit :=
  let arguments := ["-C"; src; dst] in
  let docker_params :=
    [ PStr "--log-driver"; PStr "none";
      pyval_of_ret (docker_parameters master_ip (Some [PStr "--net=host"])) ] in
  parameters <- _make_parameters (Some master_ip) [] memory arguments
                  override_parameters ;;
  dockerCall conductor_tool parameters docker_params.

Definition adam_tool : string :=
  "quay.io/ucsc_cgl/adam:962-ehf--6e7085f8cac4b9a927dc9fb06b48007957256b80".

Definition adam_master (master_ip : MasterAddress) (run_local : bool) : list string :=
  if run_local then ["--master"; "local[*]"]
  else master_conf (Some master_ip).

Definition adam_default_params (master : list string) : list string :=
  master ++ [ "--conf"; "spark.driver.maxResultSize=0";
              "--conf"; "spark.storage.memoryFraction=0.3";
              "--conf"; "spark.storage.unrollFraction=0.1";
              "--conf"; "spark.network.timeout=300s" ].

Definition call_adam (master_ip : MasterAddress) (arguments : list string)
    (memory : option Z) (override_parameters : option (list string))
    (run_local : bool) (native_adam_path : option string) : M unit :=
  let master := adam_master master_ip run_local in
  let default_params := adam_default_params master in
  match native_adam_path with
  | None =>
      let docker_params :=
        [ PStr "--log-driver"; PStr "none";
          pyval_of_ret (docker_parameters master_ip (Some [PStr "--net=host"])) ] in
      parameters <- _make_parameters (Some master_ip) default_params memory
                      arguments override_parameters ;;
      dockerCall adam_tool parameters docker_params
  | Some path =>
      check_call ([path_join path "bin/adam-submit"] ++ default_params ++ arguments)
  end.

(** The [master] list of [call_deca] and the two Mango wrappers. *)
Definition local_master (run_local : bool) : list string :=
  if run_local then ["--master"; "local[*]"] else [].

(** Their initial [default_params]. *)
Definition s3a_default_params (master : list string) : list string :=
  master ++ [ "--conf"; "spark.driver.maxResultSize=0";
              "--conf"; "spark.hadoop.hadoopbam.bam.enable-bai-splitter=true";
              "--packages";
              "com.amazonaws:aws-java-sdk-pom:1.10.34,org.apache.hadoop:hadoop-aws:2.7.4";
              "--conf"; "spark.hadoop.fs.s3a.impl=org.apache.hadoop.fs.s3a.S3AFileSystem" ].

(** The two [-e] options added to the "docker run" options. *)
Definition aws_env (aws_access_key_id aws_secret_access_key : option string)
  : list pyval :=
  [ PStr "-e"; PStr ("AWS_ACCESS_KEY_ID=" ++ str_of_opt aws_access_key_id);
    PStr "-e"; PStr ("AWS_SECRET_ACCESS_KEY=" ++ str_of_opt aws_secret_access_key) ]%string.

(** One round of [for scheme in ['s3', 's3n']]. *)
Definition aws_scheme_conf (ak sk : option string) (scheme : string) : list string :=
  [ "--conf"; "spark.hadoop.fs." ++ scheme ++ ".awsAccessKeyId=" ++ str_of_opt ak;
    "--conf"; "spark.hadoop.fs." ++ scheme ++ ".awsSecretAccessKey=" ++ str_of_opt sk ]%string.

(** The last [default_params.extend] of the credentials branch. *)
Definition aws_s3a_conf (ak sk : option string) : list string :=
  [ "--conf"; "spark.hadoop.fs.s3a.access.key=" ++ str_of_opt ak;
    "--conf"; "spark.hadoop.fs.s3a.secret.key=" ++ str_of_opt sk;
    "--conf"; "spark.executorEnv.AWS_ACCESS_KEY_ID=" ++ str_of_opt ak;
    "--conf"; "spark.executorEnv.AWS_SECRET_ACCESS_KEY=" ++ str_of_opt sk ]%string.

Definition secret_key_message : string :=
  "If AWS access key is passed, secret key must be defined".

(** The [if aws_access_key_id:] block, threading the two lists it extends;
    [first_extend] is the wrapper's first [default_params.extend]. *)
Definition aws_block (first_extend : list string)
    (aws_access_key_id aws_secret_access_key : option string)
    (docker_params : list pyval) (default_params : list string)
  : M (list pyval * list string) :=
  if truthy aws_access_key_id then
    require (truthy aws_secret_access_key) secret_key_message ;;;
    let docker_params :=
      docker_params ++ aws_env aws_access_key_id aws_secret_access_key in
    let default_params := default_params ++ first_extend in
    let default_params :=
      fold_left (fun acc scheme =>
                   acc ++ aws_scheme_conf aws_access_key_id aws_secret_access_key scheme)
                ["s3"; "s3n"] default_params in
    let default_params :=
      default_params ++ aws_s3a_conf aws_access_key_id aws_secret_access_key in
    ret (docker_params, default_params)
  else ret (docker_params, default_params).

(** [if work_dir: docker_parameters.extend(['-v', '%s:/data' % work_dir])]. *)
Definition work_dir_params (work_dir : option string) (docker_params : list pyval)
  : list pyval :=
  if truthy work_dir
  then docker_params ++ [PStr "-v"; PStr (str_of_opt work_dir ++ ":/data")%string]
  else docker_params.

Definition deca_tool : string :=
  "quay.io/ucsc_cgl/deca:0.1.0--7d13833a1220001481c4de0489e893c93ee3310f".

Definition call_deca (master_ip : option MasterAddress) (arguments : list string)
    (memory : option Z) (override_parameters : option (list string))
    (work_dir : option string) (run_local : bool)
    (aws_access_key_id aws_secret_access_key : option string) : M unit :=
  let master := local_master run_local in
  let default_params := s3a_default_params master in
  let docker_params := [PStr "--log-driver"; PStr "none"; PStr "--net=host"] in
  '(docker_params, default_params) <-
    aws_block
      [ "--packages";
        "com.amazonaws:aws-java-sdk-pom:1.10.34,org.apache.hadoop:hadoop-aws:2.7.4";
        "--conf"; "spark.hadoop.fs.s3a.impl=org.apache.hadoop.fs.s3a.S3AFileSystem" ]
      aws_access_key_id aws_secret_access_key docker_params default_params ;;
  let docker_params := work_dir_params work_dir docker_params in
  parameters <- _make_parameters master_ip default_params memory arguments
                  override_parameters ;;
  dockerCall deca_tool parameters docker_params.

Definition mango_tool : string := "quay.io/ucsc_cgl/mango:latest".

(** [--net=host], or the port publishing of the [run_mac] mode. *)
Definition mango_net (run_mac : bool) (port : Z) (container_port : string)
  : list pyval :=
  if negb run_mac then [PStr "--net=host"]
  else [PStr "-p"; PStr (str_of_int port ++ ":" ++ container_port)%string].

Definition mango_first_extend : list string :=
  [ "--conf"; "spark.hadoop.fs.s3a.impl=org.apache.hadoop.fs.s3a.S3AFileSystem" ].

Definition call_mango_browser (master_ip : option MasterAddress)
    (arguments : list string) (host : string) (port : Z)
    (memory : option Z) (override_parameters : option (list string))
    (work_dir : option string) (run_local run_mac : bool)
    (aws_access_key_id aws_secret_access_key : option string) : M unit :=
  let master := local_master run_local in
  let default_params := s3a_default_params master in
  let docker_params := [] ++ mango_net run_mac port "8080" in
  '(docker_params, default_params) <-
    aws_block mango_first_extend aws_access_key_id aws_secret_access_key
      docker_params default_params ;;
  let docker_params := work_dir_params work_dir docker_params in
  parameters <- _make_parameters master_ip default_params memory arguments
                  override_parameters ;;
  logToMaster "Starting the merge sort" ;;;
  logToMaster __name__ ;;;
  try_except
    (dockerCall mango_tool parameters docker_params)
    (logToMaster "docker exited").

Definition call_mango_notebook (master_ip : option MasterAddress)
    (arguments : list string) (host : string) (port : Z)
    (memory : option Z) (override_parameters : option (list string))
    (work_dir : option string) (run_local run_mac : bool)
    (aws_access_key_id aws_secret_access_key : option string) : M unit :=
  let master := local_master run_local in
  let default_params := s3a_default_params master in
  let docker_params := [] ++ mango_net run_mac port "8888" in
  let docker_params :=
    docker_params ++ [PStr "--entrypoint=/home/mango/bin/mango-notebook"] in
  '(docker_params, default_params) <-
    aws_block mango_first_extend aws_access_key_id aws_secret_access_key
      docker_params default_params ;;
  let docker_params := work_dir_params work_dir docker_params in
  parameters <- _make_parameters master_ip default_params memory arguments
                  override_parameters ;;
  dockerCall mango_tool parameters docker_params.

End Tools.

(** ** Observations used in the statements *)

(** Running a computation from the empty trace. *)
Definition run {A} (m : M A) : (exn + A) * list event := m [].

(** [a] directly followed by [b] somewhere in [l]: a flag and its value. *)
Fixpoint adjacent {A} (a b : A) (l : list A) : Prop :=
  match l with
  | x :: (y :: _) as t => (x = a /\ y = b) \/ adjacent a b t
  | _ => False
  end.

(** Number of separator tokens in a parameter list. *)
Definition count_sep (l : list string) : nat := count_occ string_dec l "--".

Definition memory_message : string :=
  "Either the memory setting must be defined or you must provide Spark configuration parameters.".

(** Exactly one of [memory] and [override_parameters] is not [None]. *)
Definition exactly_one (memory : option Z) (override_parameters : option (list string))
  : bool :=
  xorb (is_some memory) (is_some override_parameters).

(** The entries that open the assembled list: the memory settings or the
    caller's overrides. *)
Definition leading_conf (memory : option Z) (override_parameters : option (list string))
  : list string :=
  match memory, override_parameters with
  | Some m, _ => memory_conf m
  | None, Some ov => ov
  | None, None => []
  end.

(** The list a successful call of the assembler returns. *)
Definition assembled (mi : option MasterAddress) (dp : list string)
    (mem : option Z) (args : list string) (ov : option (list string))
  : list string :=
  leading_conf mem ov
  ++ (if master_truthy mi then master_conf mi else [])
  ++ dp ++ ["--"] ++ args.

(** The credentials check: a secret key whenever there is an access key. *)
Definition creds_ok (ak sk : option string) : bool :=
  negb (truthy ak) || truthy sk.

(** The two lists after the [if aws_access_key_id:] block. *)
Definition aws_default_params (first_extend : list string) (ak sk : option string)
    (default_params : list string) : list string :=
  (((default_params ++ first_extend) ++ aws_scheme_conf ak sk "s3")
   ++ aws_scheme_conf ak sk "s3n") ++ aws_s3a_conf ak sk.

Definition creds_default (first_extend : list string) (ak sk : option string)
    (default_params : list string) : list string :=
  if truthy ak then aws_default_params first_extend ak sk default_params
  else default_params.

Definition creds_docker (ak sk : option string) (docker_params : list pyval)
  : list pyval :=
  if truthy ak then docker_params ++ aws_env ak sk else docker_params.

(** The "docker run" options of [call_conductor] and [call_adam]. *)
Definition nested_docker_params (master_ip : MasterAddress) : list pyval :=
  [ PStr "--log-driver"; PStr "none";
    pyval_of_ret (docker_parameters master_ip (Some [PStr "--net=host"])) ].

(** The container runs recorded in a trace, in order. *)
Fixpoint docker_calls (tr : list event)
  : list (string * list string * list pyval) :=
  match tr with
  | [] => []
  | EDockerCall tool ps dps :: rest => (tool, ps, dps) :: docker_calls rest
  | _ :: rest => docker_calls rest
  end.

(** Both keys reach the container: as [-e] environment options of the
    container, and as configuration entries of the assembled parameters. *)
Definition credentials_passed (ak sk : string) (ps : list string)
    (dps : list pyval) : Prop :=
  adjacent (PStr "-e") (PStr ("AWS_ACCESS_KEY_ID=" ++ ak)%string) dps /\
  adjacent (PStr "-e") (PStr ("AWS_SECRET_ACCESS_KEY=" ++ sk)%string) dps /\
  adjacent "--conf" ("spark.hadoop.fs.s3.awsAccessKeyId=" ++ ak)%string ps /\
  adjacent "--conf" ("spark.hadoop.fs.s3.awsSecretAccessKey=" ++ sk)%string ps /\
  adjacent "--conf" ("spark.hadoop.fs.s3n.awsAccessKeyId=" ++ ak)%string ps /\
  adjacent "--conf" ("spark.hadoop.fs.s3n.awsSecretAccessKey=" ++ sk)%string ps /\
  adjacent "--conf" ("spark.hadoop.fs.s3a.access.key=" ++ ak)%string ps /\
  adjacent "--conf" ("spark.hadoop.fs.s3a.secret.key=" ++ sk)%string ps /\
  adjacent "--conf" ("spark.executorEnv.AWS_ACCESS_KEY_ID=" ++ ak)%string ps /\
  adjacent "--conf" ("spark.executorEnv.AWS_SECRET_ACCESS_KEY=" ++ sk)%string ps.

(** Number of [--master] flags in a parameter list. *)
Definition count_master (l : list string) : nat :=
  count_occ string_dec l "--master".

(** Whether a string holds a colon. *)
Fixpoint has_colon (s : string) : bool :=
  match s with
  | EmptyString => false
  | String c rest => Ascii.eqb c ":" || has_colon rest
  end.

(** [1] for [True], [0] for [False]. *)
Definition b2n (b : bool) : nat := if b then 1 else 0.

(** The default flags of [call_deca] and of the two Mango wrappers once the
    credentials block has run. *)
Definition deca_first_extend : list string :=
  [ "--packages";
    "com.amazonaws:aws-java-sdk-pom:1.10.34,org.apache.hadoop:hadoop-aws:2.7.4";
    "--conf"; "spark.hadoop.fs.s3a.impl=org.apache.hadoop.fs.s3a.S3AFileSystem" ].

(** ** Auxiliary results *)

Example make_parameters_node1_8 :
  _make_parameters (Some (MasterAddress_init "node1")) ["-x"] (Some 8%Z) ["a"; "b"] None []
  = (inr [ "--conf"; "spark.driver.memory=8g"; "--conf"; "spark.executor.memory=8g";
           "--master"; "spark://node1:7077";
           "--conf"; "spark.hadoop.fs.default.name=hdfs://node1:8020";
           "-x"; "--"; "a"; "b" ], []).
Proof. reflexivity. Qed.

Lemma adjacent_app_l {A} (a b : A) (l r : list A) :
  adjacent a b l -> adjacent a b (l ++ r).
Proof.
  induction l as [|x [|y t] IH]; simpl; tauto.
Qed.

Lemma adjacent_app_r {A} (a b : A) (l r : list A) :
  adjacent a b r -> adjacent a b (l ++ r).
Proof.
  intros H. induction l as [|x t IH]; [exact H|].
  change ((x :: t) ++ r) with (x :: (t ++ r)).
  destruct (t ++ r) as [|y u]; [destruct IH | right; exact IH].
Qed.

Lemma memory_conf_no_sep (m : Z) : count_sep (memory_conf m) = 0.
Proof.
  apply count_occ_not_In. unfold memory_conf. simpl.
  intros [H|[H|[H|[H|[]]]]]; discriminate H.
Qed.

Lemma master_conf_no_sep (mi : option MasterAddress) : count_sep (master_conf mi) = 0.
Proof.
  apply count_occ_not_In. unfold master_conf. simpl.
  intros [H|[H|[H|[H|[]]]]]; discriminate H.
Qed.

Lemma count_sep_app (l r : list string) :
  count_sep (l ++ r) = count_sep l + count_sep r.
Proof. apply count_occ_app. Qed.

(** What a call of the assembler does, from any trace: the check, then the
    list, and no event. *)
Lemma make_parameters_run mi dp mem args ov tr :
  _make_parameters mi dp mem args ov tr =
  if exactly_one mem ov
  then (inr (assembled mi dp mem args ov), tr)
  else (inl (UserError memory_message), tr).
Proof.
  unfold assembled, _make_parameters, exactly_one, leading_conf, bind, require, ret, raise.
  destruct mem as [m|], ov as [o|]; simpl; try reflexivity;
    destruct (master_truthy mi); simpl;
    repeat rewrite <- app_assoc; simpl; try rewrite app_nil_r; reflexivity.
Qed.

Lemma exactly_one_false mem ov :
  is_some mem = is_some ov -> exactly_one mem ov = false.
Proof. unfold exactly_one. intros ->. apply xorb_nilpotent. Qed.

Lemma exactly_one_true mem ov :
  is_some mem <> is_some ov -> exactly_one mem ov = true.
Proof.
  unfold exactly_one. destruct (is_some mem), (is_some ov); simpl; congruence.
Qed.

(** ** MasterAddress *)

(** C10: a [MasterAddress] just built from any string (["auto"] included) has
    [actual] equal to the string itself, and [docker_parameters] on it returns
    its argument unchanged, so no host-alias option is added. *)
Theorem fresh_master_address_actual_is_nominal (s : string)
    (arg : option (list pyval)) :
  actual (MasterAddress_init s) = s /\
  actual (MasterAddress_init s) = nominal (MasterAddress_init s) /\
  actual (MasterAddress_init "auto") = "auto" /\
  docker_parameters (MasterAddress_init s) arg = arg.
Proof.
  repeat split.
  unfold docker_parameters. simpl. now rewrite String.eqb_refl.
Qed.

(** C4 as stated fails when the addresses are equal and no list is supplied:
    the result is then [None], not a newly created list. *)
Lemma docker_parameters_none_stays_none :
  docker_parameters (MasterAddress_init "foo") None = None /\
  ~ (exists l, docker_parameters (MasterAddress_init "foo") None = Some l).
Proof.
  split; [reflexivity|]. intros [l H]. discriminate H.
Qed.

(** C4, amended: with equal addresses the argument comes back as it is (the
    caller's list, or [None] when none was supplied); with different ones
    exactly one option, [--add-host=spark-master:] followed by the actual
    address, is appended to the caller's list, or is the only element of a new
    list when none was supplied. *)
Theorem docker_parameters_host_alias (self : MasterAddress)
    (arg : option (list pyval)) :
  (nominal self = actual self -> docker_parameters self arg = arg) /\
  (nominal self <> actual self ->
   docker_parameters self arg =
   Some (match arg with Some l => l | None => [] end
         ++ [PStr ("--add-host=spark-master:" ++ actual self)%string])).
Proof.
  unfold docker_parameters. split; intros H.
  - apply String.eqb_eq in H. now rewrite H.
  - apply String.eqb_neq in H. rewrite H. simpl. now destruct arg.
Qed.

Lemma docker_parameters_host_alias_witness :
  docker_parameters (mkMasterAddress "spark-master" "10.0.0.5")
    (Some [PStr "--net=host"])
  = Some [PStr "--net=host"; PStr "--add-host=spark-master:10.0.0.5"] /\
  docker_parameters (mkMasterAddress "node1" "node1") (Some [PStr "--net=host"])
  = Some [PStr "--net=host"].
Proof.
  split.
  - apply (proj2 (docker_parameters_host_alias
                    (mkMasterAddress "spark-master" "10.0.0.5")
                    (Some [PStr "--net=host"]))).
    simpl. discriminate.
  - apply (proj1 (docker_parameters_host_alias
                    (mkMasterAddress "node1" "node1")
                    (Some [PStr "--net=host"]))).
    reflexivity.
Defined.

(** ** The assembler *)

(** C2 as stated fails: with leader ["node1"] and memory 8 the list does not
    open with the connection-target and filesystem entries. *)
Lemma make_parameters_node1_not_master_first :
  ~ (exists rest,
       run (_make_parameters (Some (MasterAddress_init "node1")) [] (Some 8%Z) [] None)
       = (inr ([ "--master"; "spark://node1:7077";
                 "--conf"; "spark.hadoop.fs.default.name=hdfs://node1:8020" ]
               ++ rest), [])).
Proof.
  intros [rest H]. vm_compute in H. discriminate H.
Qed.

(** C2, amended: with leader ["node1"] and memory 8 the list is the driver
    and executor memory entries, then the connection-target entry at
    node1:7077 and the filesystem entry at node1:8020, then the tool defaults,
    then the separator, then the tool arguments. *)
Theorem make_parameters_node1_order (default_parameters arguments : list string) :
  run (_make_parameters (Some (MasterAddress_init "node1")) default_parameters
         (Some 8%Z) arguments None)
  = (inr ([ "--conf"; "spark.driver.memory=8g";
            "--conf"; "spark.executor.memory=8g" ]
          ++ [ "--master"; "spark://node1:7077";
               "--conf"; "spark.hadoop.fs.default.name=hdfs://node1:8020" ]
          ++ default_parameters ++ ["--"] ++ arguments), []).
Proof.
  unfold run. rewrite make_parameters_run. reflexivity.
Qed.

(** C3 as stated fails: a tool argument that is itself ["--"] gives a list
    with two separator tokens. *)
Lemma make_parameters_two_separators :
  exists ps,
    run (_make_parameters None [] (Some 4%Z) ["--"] None) = (inr ps, []) /\
    count_sep ps = 2.
Proof.
  eexists. split; reflexivity.
Qed.

(** C3, amended: a successful call yields a list that ends with the separator
    followed by the tool arguments in their order; the number of separator
    tokens in it is one more than their number in the overrides, the default
    flags and the tool arguments, hence exactly one when none of those holds
    the token. *)
Theorem make_parameters_separator mi dp mem args ov tr ps tr'
    (Hrun : _make_parameters mi dp mem args ov tr = (inr ps, tr')) :
  (exists pre, ps = pre ++ "--" :: args /\
               count_sep pre = count_sep (leading_conf None ov) + count_sep dp) /\
  count_sep ps
  = 1 + count_sep (leading_conf None ov) + count_sep dp + count_sep args /\
  (count_sep (leading_conf None ov) = 0 -> count_sep dp = 0 ->
   count_sep args = 0 -> count_sep ps = 1).
Proof.
  rewrite make_parameters_run in Hrun. unfold assembled in Hrun.
  destruct (exactly_one mem ov) eqn:E; [|discriminate Hrun].
  injection Hrun as <- _.
  assert (Hlead : count_sep (leading_conf mem ov) = count_sep (leading_conf None ov)).
  { destruct mem as [m|], ov as [o|]; try discriminate E; simpl;
      try reflexivity; apply memory_conf_no_sep. }
  assert (Hmaster : count_sep (if master_truthy mi then master_conf mi else []) = 0).
  { destruct (master_truthy mi); [apply master_conf_no_sep | reflexivity]. }
  assert (Hpre : count_sep ((leading_conf mem ov
                   ++ (if master_truthy mi then master_conf mi else [])) ++ dp)
                 = count_sep (leading_conf None ov) + count_sep dp).
  { rewrite !count_sep_app, Hlead, Hmaster. lia. }
  assert (Hcount : count_sep (leading_conf mem ov
                     ++ (if master_truthy mi then master_conf mi else [])
                     ++ dp ++ ["--"] ++ args)
                   = 1 + count_sep (leading_conf None ov) + count_sep dp
                     + count_sep args).
  { rewrite !count_sep_app, Hlead, Hmaster.
    change (count_sep ["--"]) with 1. lia. }
  split; [|split].
  - exists ((leading_conf mem ov
             ++ (if master_truthy mi then master_conf mi else [])) ++ dp).
    split; [|exact Hpre]. rewrite <- !app_assoc. reflexivity.
  - exact Hcount.
  - intros H1 H2 H3.
    change ("--" :: args) with (["--"] ++ args). rewrite Hcount. lia.
Qed.

Lemma make_parameters_separator_witness :
  exists pre,
    [ "--conf"; "spark.driver.memory=4g"; "--conf"; "spark.executor.memory=4g";
      "-x"; "--"; "a"; "b" ] = pre ++ "--" :: ["a"; "b"] /\
    count_sep pre = count_sep (leading_conf None None) + count_sep ["-x"].
Proof.
  apply (make_parameters_separator None ["-x"] (Some 4%Z) ["a"; "b"] None [] _ []).
  reflexivity.
Defined.

(** C5 as stated fails: a [--master] flag among the default flags, as the
    wrappers pass with [run_local], is in the list although no leader address
    is given. *)
Lemma make_parameters_memory_4_master_from_defaults :
  exists ps,
    run (_make_parameters None ["--master"; "local[*]"] (Some 4%Z) ["transform"]
           None) = (inr ps, []) /\
    In "--master" ps.
Proof.
  eexists. split; [reflexivity|]. simpl. tauto.
Qed.

(** C5, amended: with memory 4, no overrides and no leader address, whatever
    the default flags and tool arguments, the list is the driver and executor
    memory entries set to [4g], then the default flags, the separator and the
    tool arguments; the assembler adds no [--master] entry, so the list holds
    one exactly when the default flags or the tool arguments do. *)
Theorem make_parameters_memory_4_no_leader mi dp args
    (Hlocal : master_truthy mi = false) :
  exists ps,
    run (_make_parameters mi dp (Some 4%Z) args None) = (inr ps, []) /\
    ps = [ "--conf"; "spark.driver.memory=4g";
           "--conf"; "spark.executor.memory=4g" ] ++ dp ++ ["--"] ++ args /\
    adjacent "--conf" "spark.driver.memory=4g" ps /\
    adjacent "--conf" "spark.executor.memory=4g" ps /\
    (In "--master" ps <-> In "--master" dp \/ In "--master" args).
Proof.
  unfold run. rewrite make_parameters_run. unfold assembled. rewrite Hlocal.
  eexists. split; [reflexivity|]. split; [reflexivity|].
  split; [|split].
  - simpl. left. now split.
  - simpl. right. right. left. now split.
  - simpl. rewrite in_app_iff. simpl. split.
    + intros [H|[H|[H|[H|[H|[H|H]]]]]]; try discriminate H; tauto.
    + intros [H|H]; tauto.
Qed.

Lemma make_parameters_memory_4_no_leader_witness :
  exists ps,
    run (_make_parameters (Some (MasterAddress_init ""))
           ["--conf"; "spark.driver.maxResultSize=0"]
           (Some 4%Z) ["transform"] None) = (inr ps, []) /\
    ps = [ "--conf"; "spark.driver.memory=4g";
           "--conf"; "spark.executor.memory=4g" ]
         ++ ["--conf"; "spark.driver.maxResultSize=0"] ++ ["--"] ++ ["transform"] /\
    adjacent "--conf" "spark.driver.memory=4g" ps /\
    adjacent "--conf" "spark.executor.memory=4g" ps /\
    (In "--master" ps <->
     In "--master" ["--conf"; "spark.driver.maxResultSize=0"]
     \/ In "--master" ["transform"]).
Proof.
  apply (make_parameters_memory_4_no_leader (Some (MasterAddress_init ""))
           ["--conf"; "spark.driver.maxResultSize=0"] ["transform"]).
  reflexivity.
Defined.


(** ** The wrappers *)

Lemma aws_block_run fe ak sk dps dp tr :
  aws_block fe ak sk dps dp tr =
  if creds_ok ak sk
  then (inr (creds_docker ak sk dps, creds_default fe ak sk dp), tr)
  else (inl (UserError secret_key_message), tr).
Proof.
  unfold aws_block, creds_ok, creds_docker, creds_default, aws_default_params,
    bind, require, ret, raise.
  destruct (truthy ak), (truthy sk); reflexivity.
Qed.

Section ToolFacts.

Variable docker_exit : string -> list string -> list pyval -> Z.
Variable process_exit : list string -> Z.

Lemma dockerCall_run tool ps dps tr :
  dockerCall docker_exit tool ps dps tr
  = (docker_outcome docker_exit tool ps dps, tr ++ [EDockerCall tool ps dps]).
Proof.
  unfold dockerCall, docker_outcome, bind, emit, ret, raise.
  destruct (Z.eqb (docker_exit tool ps dps) 0); reflexivity.
Qed.

Lemma check_call_run argv tr :
  check_call process_exit argv tr
  = (process_outcome process_exit argv, tr ++ [ECheckCall argv]).
Proof.
  unfold check_call, process_outcome, bind, emit, ret, raise.
  destruct (Z.eqb (process_exit argv) 0); reflexivity.
Qed.

Lemma call_conductor_run master_ip src dst mem ov tr :
  call_conductor docker_exit master_ip src dst mem ov tr =
  if exactly_one mem ov then
    let ps := assembled (Some master_ip) [] mem ["-C"; src; dst] ov in
    let dps := nested_docker_params master_ip in
    (docker_outcome docker_exit conductor_tool ps dps,
     tr ++ [EDockerCall conductor_tool ps dps])
  else (inl (UserError memory_message), tr).
Proof.
  unfold call_conductor, bind. rewrite make_parameters_run.
  destruct (exactly_one mem ov); [|reflexivity].
  now rewrite dockerCall_run.
Qed.

Lemma call_adam_run master_ip args mem ov run_local native tr :
  call_adam docker_exit process_exit master_ip args mem ov run_local native tr =
  let dp := adam_default_params (adam_master master_ip run_local) in
  match native with
  | None =>
      if exactly_one mem ov then
        let ps := assembled (Some master_ip) dp mem args ov in
        let dps := nested_docker_params master_ip in
        (docker_outcome docker_exit adam_tool ps dps,
         tr ++ [EDockerCall adam_tool ps dps])
      else (inl (UserError memory_message), tr)
  | Some path =>
      let argv := [path_join path "bin/adam-submit"] ++ dp ++ args in
      (process_outcome process_exit argv, tr ++ [ECheckCall argv])
  end.
Proof.
  unfold call_adam, bind. destruct native as [path|].
  - now rewrite check_call_run.
  - rewrite make_parameters_run.
    destruct (exactly_one mem ov); [|reflexivity].
    now rewrite dockerCall_run.
Qed.

Lemma call_deca_run mi args mem ov wd run_local ak sk tr :
  call_deca docker_exit mi args mem ov wd run_local ak sk tr =
  if creds_ok ak sk then
    if exactly_one mem ov then
      let dp := creds_default
                  [ "--packages";
                    "com.amazonaws:aws-java-sdk-pom:1.10.34,org.apache.hadoop:hadoop-aws:2.7.4";
                    "--conf";
                    "spark.hadoop.fs.s3a.impl=org.apache.hadoop.fs.s3a.S3AFileSystem" ]
                  ak sk (s3a_default_params (local_master run_local)) in
      let ps := assembled mi dp mem args ov in
      let dps := work_dir_params wd
                   (creds_docker ak sk
                      [PStr "--log-driver"; PStr "none"; PStr "--net=host"]) in
      (docker_outcome docker_exit deca_tool ps dps,
       tr ++ [EDockerCall deca_tool ps dps])
    else (inl (UserError memory_message), tr)
  else (inl (UserError secret_key_message), tr).
Proof.
  unfold call_deca, bind. rewrite aws_block_run.
  destruct (creds_ok ak sk); [|reflexivity].
  rewrite make_parameters_run.
  destruct (exactly_one mem ov); [|reflexivity].
  now rewrite dockerCall_run.
Qed.

Lemma call_mango_browser_run mi args host port mem ov wd run_local run_mac ak sk tr :
  call_mango_browser docker_exit mi args host port mem ov wd run_local run_mac
    ak sk tr =
  if creds_ok ak sk then
    if exactly_one mem ov then
      let dp := creds_default mango_first_extend ak sk
                  (s3a_default_params (local_master run_local)) in
      let ps := assembled mi dp mem args ov in
      let dps := work_dir_params wd
                   (creds_docker ak sk (mango_net run_mac port "8080")) in
      let started :=
        ((tr ++ [ELogToMaster "Starting the merge sort"])
         ++ [ELogToMaster __name__]) ++ [EDockerCall mango_tool ps dps] in
      (inr tt,
       if Z.eqb (docker_exit mango_tool ps dps) 0 then started
       else started ++ [ELogToMaster "docker exited"])
    else (inl (UserError memory_message), tr)
  else (inl (UserError secret_key_message), tr).
Proof.
  unfold call_mango_browser, bind. rewrite aws_block_run.
  destruct (creds_ok ak sk); [|reflexivity].
  rewrite make_parameters_run.
  destruct (exactly_one mem ov); [|reflexivity].
  unfold logToMaster, emit, try_except. rewrite dockerCall_run.
  unfold docker_outcome.
  destruct (Z.eqb (docker_exit mango_tool _ _) 0); reflexivity.
Qed.

Lemma call_mango_notebook_run mi args host port mem ov wd run_local run_mac ak sk tr :
  call_mango_notebook docker_exit mi args host port mem ov wd run_local run_mac
    ak sk tr =
  if creds_ok ak sk then
    if exactly_one mem ov then
      let dp := creds_default mango_first_extend ak sk
                  (s3a_default_params (local_master run_local)) in
      let ps := assembled mi dp mem args ov in
      let dps := work_dir_params wd
                   (creds_docker ak sk
                      (mango_net run_mac port "8888"
                       ++ [PStr "--entrypoint=/home/mango/bin/mango-notebook"])) in
      (docker_outcome docker_exit mango_tool ps dps,
       tr ++ [EDockerCall mango_tool ps dps])
    else (inl (UserError memory_message), tr)
  else (inl (UserError secret_key_message), tr).
Proof.
  unfold call_mango_notebook, bind. rewrite aws_block_run.
  destruct (creds_ok ak sk); [|reflexivity].
  rewrite make_parameters_run.
  destruct (exactly_one mem ov); [|reflexivity].
  now rewrite dockerCall_run.
Qed.

End ToolFacts.

(** ** Preconditions *)

Lemma truthy_nonempty (s : string) : s <> "" -> truthy (Some s) = true.
Proof.
  intros H. simpl. apply String.eqb_neq in H. now rewrite H.
Qed.

(** C1: the assembler fails with the precondition error when memory and
    overrides are both [None] or both given, and returns a list when exactly
    one is given, issuing no event either way; every wrapper that calls it
    then fails with a precondition error before any container run or local
    process is started. *)
Theorem make_parameters_exactly_one
    (docker_exit : string -> list string -> list pyval -> Z)
    (process_exit : list string -> Z)
    mi dp mem args ov tr :
  (is_some mem = is_some ov ->
   _make_parameters mi dp mem args ov tr = (inl (UserError memory_message), tr)) /\
  (is_some mem <> is_some ov ->
   exists ps, _make_parameters mi dp mem args ov tr = (inr ps, tr)) /\
  (is_some mem = is_some ov ->
   forall master_ip src dst run_local host port wd run_mac ak sk,
     run (call_conductor docker_exit master_ip src dst mem ov)
     = (inl (UserError memory_message), []) /\
     run (call_adam docker_exit process_exit master_ip args mem ov run_local None)
     = (inl (UserError memory_message), []) /\
     (exists msg,
        run (call_deca docker_exit mi args mem ov wd run_local ak sk)
        = (inl (UserError msg), [])) /\
     (exists msg,
        run (call_mango_browser docker_exit mi args host port mem ov wd
               run_local run_mac ak sk)
        = (inl (UserError msg), [])) /\
     (exists msg,
        run (call_mango_notebook docker_exit mi args host port mem ov wd
               run_local run_mac ak sk)
        = (inl (UserError msg), []))).
Proof.
  split; [|split].
  - intros H. rewrite make_parameters_run. now rewrite (exactly_one_false _ _ H).
  - intros H. rewrite make_parameters_run. rewrite (exactly_one_true _ _ H).
    eexists. reflexivity.
  - intros H master_ip src dst run_local host port wd run_mac ak sk.
    pose proof (exactly_one_false _ _ H) as E. unfold run.
    rewrite call_conductor_run, call_adam_run, call_deca_run,
      call_mango_browser_run, call_mango_notebook_run, E. simpl.
    repeat split; destruct (creds_ok ak sk); eexists; reflexivity.
Qed.

Lemma make_parameters_exactly_one_witness :
  _make_parameters None [] None ["x"] None []
  = (inl (UserError memory_message), []) /\
  _make_parameters None [] (Some 4%Z) ["x"] (Some ["--conf"; "a=b"]) []
  = (inl (UserError memory_message), []) /\
  (exists ps, _make_parameters None [] (Some 4%Z) ["x"] None [] = (inr ps, [])) /\
  (exists ps, _make_parameters None [] None ["x"] (Some ["--conf"; "a=b"]) []
              = (inr ps, [])) /\
  run (call_conductor (fun _ _ _ => 0%Z) (MasterAddress_init "node1")
         "s3://a" "hdfs://b" None None)
  = (inl (UserError memory_message), []).
Proof.
  split; [|split; [|split; [|split]]].
  - apply (proj1 (make_parameters_exactly_one (fun _ _ _ => 0%Z) (fun _ => 0%Z)
                    None [] None ["x"] None [])).
    reflexivity.
  - apply (proj1 (make_parameters_exactly_one (fun _ _ _ => 0%Z) (fun _ => 0%Z)
                    None [] (Some 4%Z) ["x"] (Some ["--conf"; "a=b"]) [])).
    reflexivity.
  - apply (proj1 (proj2 (make_parameters_exactly_one (fun _ _ _ => 0%Z)
                           (fun _ => 0%Z) None [] (Some 4%Z) ["x"] None []))).
    simpl. discriminate.
  - apply (proj1 (proj2 (make_parameters_exactly_one (fun _ _ _ => 0%Z)
                           (fun _ => 0%Z) None [] None ["x"]
                           (Some ["--conf"; "a=b"]) []))).
    simpl. discriminate.
  - apply (proj2 (proj2 (make_parameters_exactly_one (fun _ _ _ => 0%Z)
                           (fun _ => 0%Z) None [] None ["x"] None [])) eq_refl
             (MasterAddress_init "node1") "s3://a" "hdfs://b" false "127.0.0.1"
             8080%Z None false None None).
Defined.

(** ** Credentials *)

Lemma adjacent_assembled (a b : string) mi dp mem args ov :
  adjacent a b dp -> adjacent a b (assembled mi dp mem args ov).
Proof.
  intros H. unfold assembled.
  apply adjacent_app_r, adjacent_app_r, adjacent_app_l, H.
Qed.

Lemma adjacent_work_dir (a b : pyval) wd dps :
  adjacent a b dps -> adjacent a b (work_dir_params wd dps).
Proof.
  intros H. unfold work_dir_params.
  destruct (truthy wd); [apply adjacent_app_l|]; exact H.
Qed.

(** With both keys given, the lists handed to the container run carry them,
    whatever the wrapper started from. *)
Lemma credentials_reach_run (ak sk : string) fe dp0 dps0 mi mem args ov wd :
  ak <> "" ->
  credentials_passed ak sk
    (assembled mi (creds_default fe (Some ak) (Some sk) dp0) mem args ov)
    (work_dir_params wd (creds_docker (Some ak) (Some sk) dps0)).
Proof.
  intros Hak. unfold credentials_passed, creds_default, creds_docker.
  rewrite (truthy_nonempty ak Hak).
  repeat split;
    try (apply adjacent_work_dir, adjacent_app_r; simpl; tauto);
    apply adjacent_assembled; unfold aws_default_params.
  - apply adjacent_app_l, adjacent_app_l, adjacent_app_r. simpl. tauto.
  - apply adjacent_app_l, adjacent_app_l, adjacent_app_r. simpl. tauto.
  - apply adjacent_app_l, adjacent_app_r. simpl. tauto.
  - apply adjacent_app_l, adjacent_app_r. simpl. tauto.
  - apply adjacent_app_r. simpl. tauto.
  - apply adjacent_app_r. simpl. tauto.
  - apply adjacent_app_r. simpl. tauto.
  - apply adjacent_app_r. simpl. tauto.
Qed.

Lemma creds_ok_both (ak sk : string) :
  ak <> "" -> sk <> "" -> creds_ok (Some ak) (Some sk) = true.
Proof.
  intros Ha Hs. unfold creds_ok.
  rewrite (truthy_nonempty ak Ha), (truthy_nonempty sk Hs). reflexivity.
Qed.

Lemma creds_ok_missing_secret (ak : string) (sk : option string) :
  ak <> "" -> truthy sk = false -> creds_ok (Some ak) sk = false.
Proof.
  intros Ha Hs. unfold creds_ok.
  rewrite (truthy_nonempty ak Ha), Hs. reflexivity.
Qed.

(** C6: in [call_deca], [call_mango_browser] and [call_mango_notebook], an
    access key without a secret key is a precondition error raised before any
    external process starts; with both keys (and a valid memory/overrides
    choice) the single container run gets the access-key and secret-key
    environment options and the matching configuration entries for both keys
    in its assembled parameters. *)
Theorem credentials_contract
    (docker_exit : string -> list string -> list pyval -> Z)
    mi args host port mem ov wd run_local run_mac (ak : string)
    (Hak : ak <> "") :
  (forall sk, truthy sk = false ->
     run (call_deca docker_exit mi args mem ov wd run_local (Some ak) sk)
     = (inl (UserError secret_key_message), []) /\
     run (call_mango_browser docker_exit mi args host port mem ov wd
            run_local run_mac (Some ak) sk)
     = (inl (UserError secret_key_message), []) /\
     run (call_mango_notebook docker_exit mi args host port mem ov wd
            run_local run_mac (Some ak) sk)
     = (inl (UserError secret_key_message), [])) /\
  (forall sk : string, sk <> "" -> is_some mem <> is_some ov ->
     (exists ps dps,
        docker_calls (snd (run (call_deca docker_exit mi args mem ov wd
                                  run_local (Some ak) (Some sk))))
        = [(deca_tool, ps, dps)] /\ credentials_passed ak sk ps dps) /\
     (exists ps dps,
        docker_calls (snd (run (call_mango_browser docker_exit mi args host port
                                  mem ov wd run_local run_mac (Some ak) (Some sk))))
        = [(mango_tool, ps, dps)] /\ credentials_passed ak sk ps dps) /\
     (exists ps dps,
        docker_calls (snd (run (call_mango_notebook docker_exit mi args host port
                                  mem ov wd run_local run_mac (Some ak) (Some sk))))
        = [(mango_tool, ps, dps)] /\ credentials_passed ak sk ps dps)).
Proof.
  split.
  - intros sk Hsk. unfold run.
    rewrite call_deca_run, call_mango_browser_run, call_mango_notebook_run.
    rewrite (creds_ok_missing_secret ak sk Hak Hsk). repeat split.
  - intros sk Hsk Hone. unfold run.
    rewrite call_deca_run, call_mango_browser_run, call_mango_notebook_run.
    rewrite (creds_ok_both ak sk Hak Hsk), (exactly_one_true _ _ Hone).
    cbv zeta. repeat split.
    + do 2 eexists. split; [reflexivity|].
      apply credentials_reach_run, Hak.
    + do 2 eexists. split.
      * destruct (Z.eqb _ 0); reflexivity.
      * apply credentials_reach_run, Hak.
    + do 2 eexists. split; [reflexivity|].
      apply credentials_reach_run, Hak.
Qed.

Lemma credentials_contract_witness :
  run (call_deca (fun _ _ _ => 0%Z) None ["coverage"] (Some 4%Z) None None false
         (Some "AKIA") None)
  = (inl (UserError secret_key_message), []) /\
  exists ps dps,
    docker_calls (snd (run (call_deca (fun _ _ _ => 0%Z) None ["coverage"]
                              (Some 4%Z) None None false (Some "AKIA")
                              (Some "s3cr3t"))))
    = [(deca_tool, ps, dps)] /\ credentials_passed "AKIA" "s3cr3t" ps dps.
Proof.
  assert (Hak : "AKIA" <> "") by discriminate.
  split.
  - apply (proj1 (credentials_contract (fun _ _ _ => 0%Z) None ["coverage"]
                    "127.0.0.1" 8080%Z (Some 4%Z) None None false false
                    "AKIA" Hak) None).
    reflexivity.
  - apply (proj2 (credentials_contract (fun _ _ _ => 0%Z) None ["coverage"]
                    "127.0.0.1" 8080%Z (Some 4%Z) None None false false
                    "AKIA" Hak) "s3cr3t").
    + discriminate.
    + simpl. discriminate.
Defined.

(** ** Failures of the container run *)

Section Propagation.

Variable docker_exit : string -> list string -> list pyval -> Z.
Variable process_exit : list string -> Z.



End Propagation.


(** ** The nested option list, and the local mode of [call_adam] *)

(** C8: in [call_conductor] and in the container path of [call_adam], the
    options handed to the container run are [--log-driver], [none] and, as one
    nested element, the whole list returned by
    [master_ip.docker_parameters(["--net=host"])]; [--net=host] is not a
    top-level element of them. *)
Theorem nested_net_host_option
    (docker_exit : string -> list string -> list pyval -> Z)
    (process_exit : list string -> Z)
    master_ip src dst args mem ov run_local
    (Hone : is_some mem <> is_some ov) :
  exists X,
    docker_parameters master_ip (Some [PStr "--net=host"]) = Some X /\
    ~ In (PStr "--net=host") [PStr "--log-driver"; PStr "none"; PList X] /\
    (exists ps,
       docker_calls (snd (run (call_conductor docker_exit master_ip src dst mem ov)))
       = [(conductor_tool, ps, [PStr "--log-driver"; PStr "none"; PList X])]) /\
    (exists ps,
       docker_calls (snd (run (call_adam docker_exit process_exit master_ip args
                                 mem ov run_local None)))
       = [(adam_tool, ps, [PStr "--log-driver"; PStr "none"; PList X])]).
Proof.
  unfold run. rewrite call_conductor_run, call_adam_run.
  rewrite (exactly_one_true _ _ Hone). cbv zeta. unfold nested_docker_params.
  destruct (docker_parameters master_ip (Some [PStr "--net=host"])) as [X|] eqn:E.
  - exists X. split; [reflexivity|]. split.
    + simpl. intros [H|[H|[H|[]]]]; discriminate H.
    + split; eexists; reflexivity.
  - unfold docker_parameters in E.
    destruct (negb (String.eqb (nominal master_ip) (actual master_ip)));
      discriminate E.
Qed.

Lemma nested_net_host_option_witness :
  exists X,
    docker_parameters (MasterAddress_init "node1") (Some [PStr "--net=host"])
    = Some X /\
    ~ In (PStr "--net=host") [PStr "--log-driver"; PStr "none"; PList X] /\
    (exists ps,
       docker_calls (snd (run (call_conductor (fun _ _ _ => 0%Z)
                                 (MasterAddress_init "node1") "s3://a" "hdfs://b"
                                 (Some 4%Z) None)))
       = [(conductor_tool, ps, [PStr "--log-driver"; PStr "none"; PList X])]) /\
    (exists ps,
       docker_calls (snd (run (call_adam (fun _ _ _ => 0%Z) (fun _ => 0%Z)
                                 (MasterAddress_init "node1") ["transform"]
                                 (Some 4%Z) None false None)))
       = [(adam_tool, ps, [PStr "--log-driver"; PStr "none"; PList X])]).
Proof.
  apply (nested_net_host_option (fun _ _ _ => 0%Z) (fun _ => 0%Z)
           (MasterAddress_init "node1") "s3://a" "hdfs://b" ["transform"]
           (Some 4%Z) None false).
  simpl. discriminate.
Defined.

(** C9: [call_adam] with [run_local] set, a non-empty master address and a
    valid memory/overrides choice hands the container run a parameter list
    with the pair [--master], [local[*]] and also a [--master] entry for
    [spark://<master_ip>:7077]: the address is not disregarded. *)
Theorem call_adam_local_keeps_master
    (docker_exit : string -> list string -> list pyval -> Z)
    (process_exit : list string -> Z)
    master_ip args mem ov
    (Hmaster : nominal master_ip <> "")
    (Hone : is_some mem <> is_some ov) :
  exists ps dps,
    docker_calls (snd (run (call_adam docker_exit process_exit master_ip args
                              mem ov true None)))
    = [(adam_tool, ps, dps)] /\
    adjacent "--master" "local[*]" ps /\
    adjacent "--master" ("spark://" ++ nominal master_ip ++ ":7077")%string ps.
Proof.
  unfold run. rewrite call_adam_run, (exactly_one_true _ _ Hone). cbv zeta.
  do 2 eexists. split; [reflexivity|]. unfold assembled.
  assert (Ht : master_truthy (Some master_ip) = true).
  { simpl. apply String.eqb_neq in Hmaster. now rewrite Hmaster. }
  rewrite Ht. split.
  - apply adjacent_app_r, adjacent_app_r, adjacent_app_l. simpl. tauto.
  - apply adjacent_app_r, adjacent_app_l. simpl. tauto.
Qed.

Lemma call_adam_local_keeps_master_witness :
  exists ps dps,
    docker_calls (snd (run (call_adam (fun _ _ _ => 0%Z) (fun _ => 0%Z)
                              (MasterAddress_init "node1") ["transform"]
                              (Some 4%Z) None true None)))
    = [(adam_tool, ps, dps)] /\
    adjacent "--master" "local[*]" ps /\
    adjacent "--master" "spark://node1:7077" ps.
Proof.
  apply (call_adam_local_keeps_master (fun _ _ _ => 0%Z) (fun _ => 0%Z)
           (MasterAddress_init "node1") ["transform"] (Some 4%Z) None).
  - simpl. discriminate.
  - simpl. discriminate.
Defined.

(** * Further properties *)

(** ** The shape of the container runs *)

(** Whatever container run a wrapper records, it is the one its preconditions
    let through, with the assembled parameters and the options built so far. *)
Lemma conductor_call_shape de master_ip src dst mem ov tool ps dps :
  In (tool, ps, dps)
     (docker_calls (snd (run (call_conductor de master_ip src dst mem ov)))) ->
  exactly_one mem ov = true /\
  tool = conductor_tool /\
  ps = assembled (Some master_ip) [] mem ["-C"; src; dst] ov /\
  dps = nested_docker_params master_ip.
Proof.
  unfold run. rewrite call_conductor_run.
  destruct (exactly_one mem ov); simpl; [|intros []].
  intros [H|[]]. injection H as <- <- <-. repeat split.
Qed.

Lemma adam_call_shape de pe master_ip args mem ov run_local native tool ps dps :
  In (tool, ps, dps)
     (docker_calls (snd (run (call_adam de pe master_ip args mem ov run_local
                                native)))) ->
  native = None /\
  exactly_one mem ov = true /\
  tool = adam_tool /\
  ps = assembled (Some master_ip)
         (adam_default_params (adam_master master_ip run_local)) mem args ov /\
  dps = nested_docker_params master_ip.
Proof.
  unfold run. rewrite call_adam_run. cbv zeta.
  destruct native as [path|]; [simpl; intros []|].
  destruct (exactly_one mem ov); simpl; [|intros []].
  intros [H|[]]. injection H as <- <- <-. repeat split.
Qed.

Lemma deca_call_shape de mi args mem ov wd run_local ak sk tool ps dps :
  In (tool, ps, dps)
     (docker_calls (snd (run (call_deca de mi args mem ov wd run_local ak sk)))) ->
  creds_ok ak sk = true /\
  exactly_one mem ov = true /\
  tool = deca_tool /\
  ps = assembled mi
         (creds_default deca_first_extend ak sk
            (s3a_default_params (local_master run_local))) mem args ov /\
  dps = work_dir_params wd
          (creds_docker ak sk
             [PStr "--log-driver"; PStr "none"; PStr "--net=host"]).
Proof.
  unfold run. rewrite call_deca_run. cbv zeta.
  destruct (creds_ok ak sk); [|simpl; intros []].
  destruct (exactly_one mem ov); simpl; [|intros []].
  intros [H|[]]. injection H as <- <- <-. repeat split.
Qed.

Lemma browser_call_shape de mi args host port mem ov wd run_local run_mac ak sk
    tool ps dps :
  In (tool, ps, dps)
     (docker_calls (snd (run (call_mango_browser de mi args host port mem ov wd
                                run_local run_mac ak sk)))) ->
  creds_ok ak sk = true /\
  exactly_one mem ov = true /\
  tool = mango_tool /\
  ps = assembled mi
         (creds_default mango_first_extend ak sk
            (s3a_default_params (local_master run_local))) mem args ov /\
  dps = work_dir_params wd (creds_docker ak sk (mango_net run_mac port "8080")).
Proof.
  unfold run. rewrite call_mango_browser_run. cbv zeta.
  destruct (creds_ok ak sk); [|simpl; intros []].
  destruct (exactly_one mem ov); [|simpl; intros []].
  destruct (Z.eqb _ 0); simpl; intros [H|[]]; injection H as <- <- <-;
    repeat split.
Qed.

Lemma notebook_call_shape de mi args host port mem ov wd run_local run_mac ak sk
    tool ps dps :
  In (tool, ps, dps)
     (docker_calls (snd (run (call_mango_notebook de mi args host port mem ov wd
                                run_local run_mac ak sk)))) ->
  creds_ok ak sk = true /\
  exactly_one mem ov = true /\
  tool = mango_tool /\
  ps = assembled mi
         (creds_default mango_first_extend ak sk
            (s3a_default_params (local_master run_local))) mem args ov /\
  dps = work_dir_params wd
          (creds_docker ak sk
             (mango_net run_mac port "8888"
              ++ [PStr "--entrypoint=/home/mango/bin/mango-notebook"])).
Proof.
  unfold run. rewrite call_mango_notebook_run. cbv zeta.
  destruct (creds_ok ak sk); [|simpl; intros []].
  destruct (exactly_one mem ov); simpl; [|intros []].
  intros [H|[]]. injection H as <- <- <-. repeat split.
Qed.

(** ** The assembler *)

(** X1: a leader address that is the empty string counts as no leader: the
    assembler, [call_deca] and the Mango wrappers behave as for [None], and no
    connection-target entry is produced. *)
Theorem empty_master_is_absent de (m : MasterAddress) dp args mem ov host port wd
    run_local run_mac ak sk tr
    (Hempty : nominal m = "") :
  _make_parameters (Some m) dp mem args ov tr
  = _make_parameters None dp mem args ov tr /\
  call_deca de (Some m) args mem ov wd run_local ak sk tr
  = call_deca de None args mem ov wd run_local ak sk tr /\
  call_mango_browser de (Some m) args host port mem ov wd run_local run_mac ak sk tr
  = call_mango_browser de None args host port mem ov wd run_local run_mac ak sk tr /\
  call_mango_notebook de (Some m) args host port mem ov wd run_local run_mac ak sk tr
  = call_mango_notebook de None args host port mem ov wd run_local run_mac ak sk tr.
Proof.
  assert (Ha : forall dp', assembled (Some m) dp' mem args ov
                           = assembled None dp' mem args ov).
  { intros dp'. unfold assembled. simpl. now rewrite Hempty. }
  rewrite !make_parameters_run, !call_deca_run, !call_mango_browser_run,
    !call_mango_notebook_run. cbv zeta. rewrite !Ha. repeat split.
Qed.

Lemma empty_master_is_absent_witness :
  _make_parameters (Some (MasterAddress_init "")) ["-x"] (Some 2%Z) ["a"] None []
  = _make_parameters None ["-x"] (Some 2%Z) ["a"] None [].
Proof.
  apply (empty_master_is_absent (fun _ _ _ => 0%Z) (MasterAddress_init "") ["-x"]
           ["a"] (Some 2%Z) None "127.0.0.1" 8080%Z None false false None None []).
  reflexivity.
Defined.

(** X2: overrides take the place of the two memory entries and of nothing
    else: for the same leader, default flags and tool arguments, the list built
    from a memory value and the list built from overrides share everything
    after their first part, and the default flags are in both. *)
Theorem overrides_replace_memory_entries mi dp args (memory : Z)
    (overrides : list string) :
  exists common,
    run (_make_parameters mi dp (Some memory) args None)
    = (inr (memory_conf memory ++ common), []) /\
    run (_make_parameters mi dp None args (Some overrides))
    = (inr (overrides ++ common), []) /\
    exists leader, common = leader ++ dp ++ "--" :: args.
Proof.
  unfold run. rewrite !make_parameters_run. simpl. unfold assembled. simpl.
  eexists. split; [reflexivity|]. split; [reflexivity|].
  eexists. reflexivity.
Qed.

(** ** MasterAddress *)

(** X3: [docker_parameters] does not look for an option it has added before:
    with different addresses, feeding its result back adds the host alias a
    second time. *)
Theorem docker_parameters_twice (self : MasterAddress) (l : list pyval)
    (Hdiff : nominal self <> actual self) :
  docker_parameters self (docker_parameters self (Some l))
  = Some (l ++ [ PStr ("--add-host=spark-master:" ++ actual self)%string;
                 PStr ("--add-host=spark-master:" ++ actual self)%string ]).
Proof.
  unfold docker_parameters. apply String.eqb_neq in Hdiff. rewrite Hdiff. simpl.
  now rewrite <- app_assoc.
Qed.

Lemma docker_parameters_twice_witness :
  docker_parameters (mkMasterAddress "spark-master" "10.0.0.5")
    (docker_parameters (mkMasterAddress "spark-master" "10.0.0.5")
       (Some [PStr "--net=host"]))
  = Some [ PStr "--net=host"; PStr "--add-host=spark-master:10.0.0.5";
           PStr "--add-host=spark-master:10.0.0.5" ].
Proof.
  apply (docker_parameters_twice (mkMasterAddress "spark-master" "10.0.0.5")
           [PStr "--net=host"]).
  simpl. discriminate.
Defined.

(** ** [call_conductor] *)

(** X4: when the actual address of the master differs from its name,
    [call_conductor] still addresses Spark and HDFS by the name, and the actual
    address only shows in the host alias, inside the nested option list. *)
Theorem conductor_uses_name_and_alias de (master_ip : MasterAddress) src dst mem ov
    (Hdiff : nominal master_ip <> actual master_ip)
    (Hone : is_some mem <> is_some ov) :
  docker_calls (snd (run (call_conductor de master_ip src dst mem ov)))
  = [ (conductor_tool,
       assembled (Some (MasterAddress_init (nominal master_ip))) [] mem
         ["-C"; src; dst] ov,
       [ PStr "--log-driver"; PStr "none";
         PList [ PStr "--net=host";
                 PStr ("--add-host=spark-master:" ++ actual master_ip)%string ] ]) ].
Proof.
  unfold run. rewrite call_conductor_run, (exactly_one_true _ _ Hone).
  cbv zeta. unfold nested_docker_params, docker_parameters.
  apply String.eqb_neq in Hdiff. rewrite Hdiff. reflexivity.
Qed.

Lemma conductor_uses_name_and_alias_witness :
  docker_calls (snd (run (call_conductor (fun _ _ _ => 0%Z)
                            (mkMasterAddress "spark-master" "10.0.0.5")
                            "s3://a" "hdfs://b" (Some 4%Z) None)))
  = [ (conductor_tool,
       [ "--conf"; "spark.driver.memory=4g"; "--conf"; "spark.executor.memory=4g";
         "--master"; "spark://spark-master:7077";
         "--conf"; "spark.hadoop.fs.default.name=hdfs://spark-master:8020";
         "--"; "-C"; "s3://a"; "hdfs://b" ],
       [ PStr "--log-driver"; PStr "none";
         PList [ PStr "--net=host"; PStr "--add-host=spark-master:10.0.0.5" ] ]) ].
Proof.
  apply (conductor_uses_name_and_alias (fun _ _ _ => 0%Z)
           (mkMasterAddress "spark-master" "10.0.0.5") "s3://a" "hdfs://b"
           (Some 4%Z) None).
  - simpl. discriminate.
  - simpl. discriminate.
Defined.

(** ** [call_adam] on a native installation *)

(** X5: with a native ADAM path, [call_adam] never consults [memory] or
    [override_parameters] (no check, no memory entry) and starts no container:
    the run is the same for any two choices of them, and is one local process
    whose argument vector is the launcher path, the default flags (the master
    entries of the mode, then the four tuning entries) and the tool arguments,
    with no separator put between them. *)
Theorem call_adam_native_ignores_memory de pe (master_ip : MasterAddress) args
    mem ov mem' ov' (run_local : bool) path :
  let flags : list string :=
    (if run_local then ["--master"; "local[*]"]
     else [ "--master"; ("spark://" ++ nominal master_ip ++ ":7077")%string;
            "--conf";
            ("spark.hadoop.fs.default.name=hdfs://" ++ nominal master_ip
             ++ ":8020")%string ])
    ++ [ "--conf"; "spark.driver.maxResultSize=0";
         "--conf"; "spark.storage.memoryFraction=0.3";
         "--conf"; "spark.storage.unrollFraction=0.1";
         "--conf"; "spark.network.timeout=300s" ] in
  run (call_adam de pe master_ip args mem ov run_local (Some path))
  = run (call_adam de pe master_ip args mem' ov' run_local (Some path)) /\
  docker_calls (snd (run (call_adam de pe master_ip args mem ov run_local
                            (Some path)))) = [] /\
  snd (run (call_adam de pe master_ip args mem ov run_local (Some path)))
  = [ECheckCall (path_join path "bin/adam-submit" :: flags ++ args)] /\
  count_sep flags = 0.
Proof.
  intros flags. unfold run. rewrite !call_adam_run. cbv zeta.
  split; [reflexivity|]. split; [reflexivity|]. split.
  - unfold flags, adam_default_params, adam_master.
    destruct run_local; reflexivity.
  - apply count_occ_not_In. unfold flags.
    destruct run_local; simpl; intros H;
      repeat (destruct H as [H|H]; [discriminate H|]); exact H.
Qed.

(** X6: on the native path the exit status of the local process decides the
    outcome: zero returns normally, anything else is raised to the caller. *)
Theorem call_adam_native_outcome de pe master_ip args mem ov run_local path argv
    (Hrun : In (ECheckCall argv)
              (snd (run (call_adam de pe master_ip args mem ov run_local
                           (Some path))))) :
  (pe argv = 0%Z ->
   fst (run (call_adam de pe master_ip args mem ov run_local (Some path)))
   = inr tt) /\
  (pe argv <> 0%Z ->
   fst (run (call_adam de pe master_ip args mem ov run_local (Some path)))
   = inl (CalledProcessError (pe argv))).
Proof.
  revert Hrun. unfold run. rewrite call_adam_run. cbv zeta. simpl.
  intros [H|[]]. injection H as <-. unfold process_outcome. split; intros Hrc.
  - now rewrite Hrc.
  - apply Z.eqb_neq in Hrc. now rewrite Hrc.
Qed.

Lemma call_adam_native_outcome_witness :
  fst (run (call_adam (fun _ _ _ => 0%Z) (fun _ => 3%Z) (MasterAddress_init "node1")
              ["transform"] None None true (Some "/opt/adam")))
  = inl (CalledProcessError 3).
Proof.
  pose (argv := "/opt/adam/bin/adam-submit"
                :: adam_default_params (adam_master (MasterAddress_init "node1") true)
                ++ ["transform"]).
  apply (proj2 (call_adam_native_outcome (fun _ _ _ => 0%Z) (fun _ => 3%Z)
                  (MasterAddress_init "node1") ["transform"] None None true
                  "/opt/adam" argv (or_introl eq_refl))).
  discriminate.
Defined.

(** ** How many [--master] flags reach Spark *)

Lemma count_master_app (l r : list string) :
  count_master (l ++ r) = count_master l + count_master r.
Proof. apply count_occ_app. Qed.

Lemma count_master_hit (l : list string) :
  count_master ("--master" :: l) = S (count_master l).
Proof. apply count_occ_cons_eq. reflexivity. Qed.

Lemma count_master_miss (x : string) (l : list string) :
  x <> "--master" -> count_master (x :: l) = count_master l.
Proof. intros H. apply count_occ_cons_neq. exact H. Qed.

Ltac count_master_list :=
  repeat first
    [ rewrite count_master_hit
    | rewrite count_master_miss by (simpl; discriminate) ];
  try reflexivity.

Lemma count_master_memory_conf m : count_master (memory_conf m) = 0.
Proof. unfold memory_conf. count_master_list. Qed.

Lemma count_master_master_conf mi : count_master (master_conf mi) = 1.
Proof. unfold master_conf. count_master_list. Qed.

Lemma count_master_local_master run_local :
  count_master (local_master run_local) = b2n run_local.
Proof. destruct run_local; reflexivity. Qed.

Lemma count_master_s3a_default master :
  count_master (s3a_default_params master) = count_master master.
Proof.
  unfold s3a_default_params. rewrite count_master_app.
  count_master_list. apply Nat.add_0_r.
Qed.

Lemma count_master_creds_default fe ak sk dp :
  count_master fe = 0 ->
  count_master (creds_default fe ak sk dp) = count_master dp.
Proof.
  intros Hfe. unfold creds_default, aws_default_params, aws_scheme_conf,
    aws_s3a_conf.
  destruct (truthy ak); [|reflexivity].
  rewrite !count_master_app, Hfe. count_master_list.
  change (count_master []) with 0. lia.
Qed.

Lemma count_master_leading mem ov :
  exactly_one mem ov = true ->
  count_master (leading_conf mem ov) = count_master (leading_conf None ov).
Proof.
  destruct mem as [m|], ov as [o|]; try discriminate; intros _; simpl;
    try reflexivity; apply count_master_memory_conf.
Qed.

Lemma count_master_assembled mi dp mem args ov :
  exactly_one mem ov = true ->
  count_master (assembled mi dp mem args ov)
  = count_master (leading_conf None ov) + b2n (master_truthy mi)
    + count_master dp + count_master args.
Proof.
  intros Hone. unfold assembled.
  rewrite !count_master_app, (count_master_leading _ _ Hone).
  assert (Hm : count_master (if master_truthy mi then master_conf mi else [])
               = b2n (master_truthy mi)).
  { destruct (master_truthy mi); [apply count_master_master_conf | reflexivity]. }
  rewrite Hm. change (count_master ["--"]) with 0. lia.
Qed.

(** X7: every container run of [call_adam] gets at least one [--master] flag
    of the wrapper's own, and two when the master address is not empty: one
    from the wrapper's default flags, in local and in cluster mode alike, and
    one from the assembler; the others are the caller's, from the overrides
    and the tool arguments. *)
Theorem call_adam_master_flags de pe master_ip args mem ov run_local native
    tool ps dps
    (Hcall : In (tool, ps, dps)
               (docker_calls (snd (run (call_adam de pe master_ip args mem ov
                                          run_local native))))) :
  count_master ps
  = 1 + b2n (negb (String.eqb (nominal master_ip) ""))
    + count_master (leading_conf None ov) + count_master args.
Proof.
  apply adam_call_shape in Hcall.
  destruct Hcall as (_ & Hone & _ & -> & _).
  rewrite (count_master_assembled _ _ _ _ _ Hone).
  unfold adam_default_params. rewrite count_master_app.
  assert (Hm : count_master (adam_master master_ip run_local) = 1).
  { unfold adam_master. destruct run_local;
      [reflexivity | apply count_master_master_conf]. }
  rewrite Hm. count_master_list. change (count_master []) with 0.
  simpl master_truthy. lia.
Qed.

Lemma call_adam_master_flags_witness :
  count_master
    (assembled (Some (MasterAddress_init "node1"))
       (adam_default_params (adam_master (MasterAddress_init "node1") false))
       (Some 4%Z) ["transform"] None)
  = 2.
Proof.
  apply (call_adam_master_flags (fun _ _ _ => 0%Z) (fun _ => 0%Z)
           (MasterAddress_init "node1") ["transform"] (Some 4%Z) None false None
           adam_tool _ (nested_docker_params (MasterAddress_init "node1"))).
  left. reflexivity.
Defined.

(** X8: every container run of [call_deca], [call_mango_browser] and
    [call_mango_notebook] gets one [--master] flag for a non-empty master
    address and one more when [run_local] is set, credentials or not; the
    others are the caller's, from the overrides and the tool arguments.  With
    no master address and [run_local] unset the wrappers add none. *)
Theorem s3a_wrappers_master_flags de mi args host port mem ov wd run_local run_mac
    ak sk tool ps dps
    (Hcall : In (tool, ps, dps)
               (docker_calls (snd (run (call_deca de mi args mem ov wd run_local
                                          ak sk)))) \/
             In (tool, ps, dps)
               (docker_calls (snd (run (call_mango_browser de mi args host port
                                          mem ov wd run_local run_mac ak sk)))) \/
             In (tool, ps, dps)
               (docker_calls (snd (run (call_mango_notebook de mi args host port
                                          mem ov wd run_local run_mac ak sk))))) :
  count_master ps
  = b2n (master_truthy mi) + b2n run_local
    + count_master (leading_conf None ov) + count_master args.
Proof.
  assert (Hgen : forall fe, count_master fe = 0 ->
            exactly_one mem ov = true ->
            count_master
              (assembled mi (creds_default fe ak sk
                               (s3a_default_params (local_master run_local)))
                 mem args ov)
            = b2n (master_truthy mi) + b2n run_local
              + count_master (leading_conf None ov) + count_master args).
  { intros fe Hfe Hone.
    rewrite (count_master_assembled _ _ _ _ _ Hone),
      (count_master_creds_default _ _ _ _ Hfe), count_master_s3a_default,
      count_master_local_master. lia. }
  destruct Hcall as [H|[H|H]].
  - apply deca_call_shape in H. destruct H as (_ & Hone & _ & -> & _).
    now apply Hgen.
  - apply browser_call_shape in H. destruct H as (_ & Hone & _ & -> & _).
    now apply Hgen.
  - apply notebook_call_shape in H. destruct H as (_ & Hone & _ & -> & _).
    now apply Hgen.
Qed.

Lemma s3a_wrappers_master_flags_witness :
  count_master
    (assembled (Some (MasterAddress_init "node1"))
       (creds_default deca_first_extend (Some "AKIA") (Some "s3cr3t")
          (s3a_default_params (local_master true)))
       (Some 4%Z) ["coverage"] None)
  = 2.
Proof.
  apply (s3a_wrappers_master_flags (fun _ _ _ => 0%Z)
           (Some (MasterAddress_init "node1")) ["coverage"] "127.0.0.1" 8080%Z
           (Some 4%Z) None None true false (Some "AKIA") (Some "s3cr3t")
           deca_tool _
           (work_dir_params None
              (creds_docker (Some "AKIA") (Some "s3cr3t")
                 [PStr "--log-driver"; PStr "none"; PStr "--net=host"]))).
  left. left. reflexivity.
Defined.

(** ** Credentials, network mode and working directory in the options *)

Lemma has_colon_append (a b : string) :
  has_colon (a ++ String ":" b)%string = true.
Proof.
  induction a as [|c a IH]; simpl; [reflexivity|].
  rewrite IH. apply orb_true_r.
Qed.

Lemma colon_string_neq (a b s : string) :
  has_colon s = false -> (a ++ String ":" b)%string <> s.
Proof.
  intros Hs E. rewrite <- E, has_colon_append in Hs. discriminate Hs.
Qed.

(** The options after the credentials block and the working-directory step
    are the ones before, the two [-e] pairs when there is an access key, and
    the [-v] pair when there is a working directory. *)
Lemma in_docker_options (x : pyval) wd ak sk base :
  In x (work_dir_params wd (creds_docker ak sk base)) <->
  In x base \/
  (truthy ak = true /\ In x (aws_env ak sk)) \/
  (truthy wd = true /\
   In x [PStr "-v"; PStr (str_of_opt wd ++ String ":" "/data")%string]).
Proof.
  unfold work_dir_params, creds_docker.
  destruct (truthy wd), (truthy ak); rewrite ?in_app_iff; simpl; split; intro H;
    intuition discriminate.
Qed.

Lemma aws_env_flags (x : string) ak sk :
  In (PStr x) (aws_env ak sk) ->
  x = "-e" \/ x = ("AWS_ACCESS_KEY_ID=" ++ str_of_opt ak)%string
  \/ x = ("AWS_SECRET_ACCESS_KEY=" ++ str_of_opt sk)%string.
Proof.
  unfold aws_env. simpl.
  intros [H|[H|[H|[H|[]]]]]; injection H as <-; auto.
Qed.

(** X9: a secret key given without an access key is ignored, as is an empty
    access key: [call_deca] and the Mango wrappers then run exactly as with no
    credentials at all. *)
Theorem secret_key_alone_is_ignored de mi args host port mem ov wd run_local
    run_mac ak sk
    (Hak : truthy ak = false) :
  run (call_deca de mi args mem ov wd run_local ak sk)
  = run (call_deca de mi args mem ov wd run_local None None) /\
  run (call_mango_browser de mi args host port mem ov wd run_local run_mac ak sk)
  = run (call_mango_browser de mi args host port mem ov wd run_local run_mac
           None None) /\
  run (call_mango_notebook de mi args host port mem ov wd run_local run_mac ak sk)
  = run (call_mango_notebook de mi args host port mem ov wd run_local run_mac
           None None).
Proof.
  unfold run.
  rewrite !call_deca_run, !call_mango_browser_run, !call_mango_notebook_run.
  unfold creds_ok, creds_default, creds_docker. rewrite Hak. simpl.
  repeat split.
Qed.

Lemma secret_key_alone_is_ignored_witness :
  run (call_deca (fun _ _ _ => 0%Z) None ["coverage"] (Some 4%Z) None None false
         (Some "") (Some "s3cr3t"))
  = run (call_deca (fun _ _ _ => 0%Z) None ["coverage"] (Some 4%Z) None None false
           None None).
Proof.
  apply (secret_key_alone_is_ignored (fun _ _ _ => 0%Z) None ["coverage"]
           "127.0.0.1" 8080%Z (Some 4%Z) None None false false (Some "")
           (Some "s3cr3t")).
  reflexivity.
Defined.

(** X10: a container run of [call_deca], [call_mango_browser] or
    [call_mango_notebook] has an [-e] option exactly when an access key was
    given: no environment variable is set on the container otherwise. *)
Theorem env_option_iff_access_key de mi args host port mem ov wd run_local run_mac
    ak sk tool ps dps
    (Hcall : In (tool, ps, dps)
               (docker_calls (snd (run (call_deca de mi args mem ov wd run_local
                                          ak sk)))) \/
             In (tool, ps, dps)
               (docker_calls (snd (run (call_mango_browser de mi args host port
                                          mem ov wd run_local run_mac ak sk)))) \/
             In (tool, ps, dps)
               (docker_calls (snd (run (call_mango_notebook de mi args host port
                                          mem ov wd run_local run_mac ak sk))))) :
  In (PStr "-e") dps <-> truthy ak = true.
Proof.
  assert (Hgen : forall base, ~ In (PStr "-e") base ->
            (In (PStr "-e") (work_dir_params wd (creds_docker ak sk base))
             <-> truthy ak = true)).
  { intros base Hbase. rewrite in_docker_options. split.
    - intros [H|[[H _]|[_ H]]]; [contradiction | exact H |].
      simpl in H. destruct H as [H|[H|[]]]; [discriminate H|].
      injection H as H. now apply colon_string_neq in H.
    - intros H. right. left. split; [exact H|]. simpl. now left. }
  assert (Hnet : forall cport, ~ In (PStr "-e") (mango_net run_mac port cport)).
  { intros cport. unfold mango_net. destruct run_mac; simpl.
    - intros [H|[H|[]]]; [discriminate H|]. injection H as H.
      now apply colon_string_neq in H.
    - intros [H|[]]. discriminate H. }
  destruct Hcall as [H|[H|H]].
  - apply deca_call_shape in H. destruct H as (_ & _ & _ & _ & ->).
    apply Hgen. simpl. intros [H|[H|[H|[]]]]; discriminate H.
  - apply browser_call_shape in H. destruct H as (_ & _ & _ & _ & ->).
    apply Hgen, Hnet.
  - apply notebook_call_shape in H. destruct H as (_ & _ & _ & _ & ->).
    apply Hgen. rewrite in_app_iff. intros [H|[H|[]]]; [|discriminate H].
    exact (Hnet _ H).
Qed.

Lemma env_option_iff_access_key_witness :
  In (PStr "-e")
     (work_dir_params (Some "/tmp/work")
        (creds_docker None (Some "s3cr3t")
           [PStr "--log-driver"; PStr "none"; PStr "--net=host"]))
  <-> truthy None = true.
Proof.
  apply (env_option_iff_access_key (fun _ _ _ => 0%Z) None ["coverage"]
           "127.0.0.1" 8080%Z (Some 4%Z) None (Some "/tmp/work") false false
           None (Some "s3cr3t") deca_tool
           (assembled None
              (creds_default deca_first_extend None (Some "s3cr3t")
                 (s3a_default_params (local_master false)))
              (Some 4%Z) ["coverage"] None)).
  left. left. reflexivity.
Defined.

(** X11: the Mango wrappers choose one network mode: host networking when
    [run_mac] is unset, a published port when it is set, never both; the port
    is published to the container port of the tool (8080 for the browser, 8888
    for the notebook). *)
Theorem mango_network_mode de mi args host port mem ov wd run_local run_mac
    ak sk tool ps dps :
  (In (tool, ps, dps)
      (docker_calls (snd (run (call_mango_browser de mi args host port mem ov wd
                                 run_local run_mac ak sk)))) ->
   (In (PStr "--net=host") dps <-> run_mac = false) /\
   (In (PStr "-p") dps <-> run_mac = true) /\
   (run_mac = true ->
    adjacent (PStr "-p") (PStr (str_of_int port ++ ":8080")%string) dps)) /\
  (In (tool, ps, dps)
      (docker_calls (snd (run (call_mango_notebook de mi args host port mem ov wd
                                 run_local run_mac ak sk)))) ->
   (In (PStr "--net=host") dps <-> run_mac = false) /\
   (In (PStr "-p") dps <-> run_mac = true) /\
   (run_mac = true ->
    adjacent (PStr "-p") (PStr (str_of_int port ++ ":8888")%string) dps)).
Proof.
  assert (Hrest : forall flag base,
            flag = "--net=host" \/ flag = "-p" ->
            (In (PStr flag) (work_dir_params wd (creds_docker ak sk base))
             <-> In (PStr flag) base)).
  { intros flag base Hflag. rewrite in_docker_options. split; [|tauto].
    intros [H|[[_ H]|[_ H]]]; [exact H | |]; exfalso.
    - apply aws_env_flags in H.
      destruct Hflag as [-> | ->], H as [H|[H|H]]; discriminate H.
    - simpl in H. destruct H as [H|[H|[]]]; injection H as H;
        destruct Hflag as [-> | ->]; try discriminate H;
        now apply colon_string_neq in H. }
  assert (Hnet : forall cport tail,
            (forall flag, flag = "--net=host" \/ flag = "-p" ->
                          ~ In (PStr flag) tail) ->
            (In (PStr "--net=host") (mango_net run_mac port cport ++ tail)
             <-> run_mac = false) /\
            (In (PStr "-p") (mango_net run_mac port cport ++ tail)
             <-> run_mac = true) /\
            (run_mac = true ->
             adjacent (PStr "-p") (PStr (str_of_int port ++ ":" ++ cport)%string)
               (mango_net run_mac port cport ++ tail))).
  { intros cport tail Htail.
    pose proof (Htail "--net=host" (or_introl eq_refl)) as T1.
    pose proof (Htail "-p" (or_intror eq_refl)) as T2.
    unfold mango_net. destruct run_mac; simpl; repeat split; try tauto;
      try discriminate.
    - intros [H|[H|H]]; [discriminate H | | contradiction].
      injection H as H. now apply colon_string_neq in H.
    - intros [H|H]; [discriminate H | contradiction]. }
  split; intros H.
  - apply browser_call_shape in H. destruct H as (_ & _ & _ & _ & ->).
    rewrite !Hrest by tauto.
    destruct (Hnet "8080" []) as (N1 & N2 & N3); [intros flag _ []|].
    rewrite app_nil_r in N1, N2, N3. repeat split; try tauto.
    intros Hmac. apply adjacent_work_dir. unfold creds_docker.
    destruct (truthy ak); [apply adjacent_app_l|]; exact (N3 Hmac).
  - apply notebook_call_shape in H. destruct H as (_ & _ & _ & _ & ->).
    rewrite !Hrest by tauto.
    destruct (Hnet "8888" [PStr "--entrypoint=/home/mango/bin/mango-notebook"])
      as (N1 & N2 & N3).
    { intros flag [-> | ->] [H|[]]; discriminate H. }
    repeat split; try tauto.
    intros Hmac. apply adjacent_work_dir. unfold creds_docker.
    destruct (truthy ak); [apply adjacent_app_l|]; exact (N3 Hmac).
Qed.

Lemma mango_network_mode_witness :
  (In (PStr "--net=host")
      (work_dir_params None (creds_docker None None (mango_net true 9000%Z "8080")))
   <-> true = false) /\
  (In (PStr "-p")
      (work_dir_params None (creds_docker None None (mango_net true 9000%Z "8080")))
   <-> true = true) /\
  (true = true ->
   adjacent (PStr "-p") (PStr "9000:8080")
     (work_dir_params None (creds_docker None None (mango_net true 9000%Z "8080")))).
Proof.
  apply (proj1 (mango_network_mode (fun _ _ _ => 0%Z) None ["browse"] "127.0.0.1"
                  9000%Z (Some 4%Z) None None false true None None mango_tool
                  (assembled None
                     (creds_default mango_first_extend None None
                        (s3a_default_params (local_master false)))
                     (Some 4%Z) ["browse"] None)
                  (work_dir_params None
                     (creds_docker None None (mango_net true 9000%Z "8080"))))).
  left. reflexivity.
Defined.

(** X12: the working directory is mounted on [/data] by the last two options
    of the container run when one is given; with none, or with the empty
    string, there is no [-v] option at all. *)
Theorem work_dir_volume de mi args host port mem ov wd run_local run_mac
    ak sk tool ps dps
    (Hcall : In (tool, ps, dps)
               (docker_calls (snd (run (call_deca de mi args mem ov wd run_local
                                          ak sk)))) \/
             In (tool, ps, dps)
               (docker_calls (snd (run (call_mango_browser de mi args host port
                                          mem ov wd run_local run_mac ak sk)))) \/
             In (tool, ps, dps)
               (docker_calls (snd (run (call_mango_notebook de mi args host port
                                          mem ov wd run_local run_mac ak sk))))) :
  (forall dir, wd = Some dir -> dir <> "" ->
     exists before, dps = before ++ [PStr "-v"; PStr (dir ++ ":/data")%string]) /\
  (truthy wd = false -> ~ In (PStr "-v") dps).
Proof.
  assert (Hgen : forall base, ~ In (PStr "-v") base ->
            (forall dir, wd = Some dir -> dir <> "" ->
               exists before,
                 work_dir_params wd (creds_docker ak sk base)
                 = before ++ [PStr "-v"; PStr (dir ++ ":/data")%string]) /\
            (truthy wd = false ->
             ~ In (PStr "-v") (work_dir_params wd (creds_docker ak sk base)))).
  { intros base Hbase. split.
    - intros dir -> Hdir. unfold work_dir_params.
      rewrite (truthy_nonempty dir Hdir). eexists. reflexivity.
    - intros Hwd. rewrite in_docker_options.
      intros [H|[[_ H]|[H _]]]; [contradiction| |congruence].
      apply aws_env_flags in H. destruct H as [H|[H|H]]; discriminate H. }
  assert (Hnet : forall cport, ~ In (PStr "-v") (mango_net run_mac port cport)).
  { intros cport. unfold mango_net. destruct run_mac; simpl.
    - intros [H|[H|[]]]; [discriminate H|]. injection H as H.
      now apply colon_string_neq in H.
    - intros [H|[]]. discriminate H. }
  destruct Hcall as [H|[H|H]].
  - apply deca_call_shape in H. destruct H as (_ & _ & _ & _ & ->).
    apply Hgen. simpl. intros [H|[H|[H|[]]]]; discriminate H.
  - apply browser_call_shape in H. destruct H as (_ & _ & _ & _ & ->).
    apply Hgen, Hnet.
  - apply notebook_call_shape in H. destruct H as (_ & _ & _ & _ & ->).
    apply Hgen. rewrite in_app_iff. intros [H|[H|[]]]; [|discriminate H].
    exact (Hnet _ H).
Qed.

Lemma work_dir_volume_witness :
  exists before,
    work_dir_params (Some "/tmp/work")
      (creds_docker None None [PStr "--log-driver"; PStr "none"; PStr "--net=host"])
    = before ++ [PStr "-v"; PStr "/tmp/work:/data"].
Proof.
  assert (Hdir : "/tmp/work" <> "") by discriminate.
  apply (proj1 (work_dir_volume (fun _ _ _ => 0%Z) None ["coverage"] "127.0.0.1"
                  8080%Z (Some 4%Z) None (Some "/tmp/work") false false None None
                  deca_tool
                  (assembled None
                     (creds_default deca_first_extend None None
                        (s3a_default_params (local_master false)))
                     (Some 4%Z) ["coverage"] None)
                  (work_dir_params (Some "/tmp/work")
                     (creds_docker None None
                        [PStr "--log-driver"; PStr "none"; PStr "--net=host"]))
                  (or_introl (or_introl eq_refl)))
           "/tmp/work" eq_refl Hdir).
Defined.

(** ** Overrides and the default flags *)

(** X13: overrides do not displace the wrapper's own flags: in every
    container run of [call_adam], [call_deca] and the Mango wrappers, with a
    memory value or with overrides, the default flags (the unlimited result
    size among them) stand before the separator, which the tool arguments
    follow. *)
Theorem defaults_survive_overrides de pe master_ip mi args host port mem ov wd
    run_local run_mac native ak sk tool ps dps
    (Hcall : In (tool, ps, dps)
               (docker_calls (snd (run (call_adam de pe master_ip args mem ov
                                          run_local native)))) \/
             In (tool, ps, dps)
               (docker_calls (snd (run (call_deca de mi args mem ov wd run_local
                                          ak sk)))) \/
             In (tool, ps, dps)
               (docker_calls (snd (run (call_mango_browser de mi args host port
                                          mem ov wd run_local run_mac ak sk)))) \/
             In (tool, ps, dps)
               (docker_calls (snd (run (call_mango_notebook de mi args host port
                                          mem ov wd run_local run_mac ak sk))))) :
  exists before,
    ps = before ++ "--" :: args /\
    adjacent "--conf" "spark.driver.maxResultSize=0" before.
Proof.
  assert (Hgen : forall m dp, adjacent "--conf" "spark.driver.maxResultSize=0" dp ->
            exists before,
              assembled m dp mem args ov = before ++ "--" :: args /\
              adjacent "--conf" "spark.driver.maxResultSize=0" before).
  { intros m dp Hdp.
    exists ((leading_conf mem ov
             ++ (if master_truthy m then master_conf m else [])) ++ dp).
    split; [unfold assembled; now rewrite <- !app_assoc|].
    apply adjacent_app_r, Hdp. }
  assert (Hs3a : forall fe, adjacent "--conf" "spark.driver.maxResultSize=0"
                   (creds_default fe ak sk
                      (s3a_default_params (local_master run_local)))).
  { intros fe.
    assert (H0 : adjacent "--conf" "spark.driver.maxResultSize=0"
                   (s3a_default_params (local_master run_local))).
    { unfold s3a_default_params. apply adjacent_app_r. simpl. tauto. }
    unfold creds_default, aws_default_params. destruct (truthy ak); [|exact H0].
    do 4 apply adjacent_app_l. exact H0. }
  destruct Hcall as [H|[H|[H|H]]].
  - apply adam_call_shape in H. destruct H as (_ & _ & _ & -> & _).
    apply Hgen. unfold adam_default_params. apply adjacent_app_r. simpl. tauto.
  - apply deca_call_shape in H. destruct H as (_ & _ & _ & -> & _).
    apply Hgen, Hs3a.
  - apply browser_call_shape in H. destruct H as (_ & _ & _ & -> & _).
    apply Hgen, Hs3a.
  - apply notebook_call_shape in H. destruct H as (_ & _ & _ & -> & _).
    apply Hgen, Hs3a.
Qed.

Lemma defaults_survive_overrides_witness :
  exists before,
    assembled (Some (MasterAddress_init "node1"))
      (adam_default_params (adam_master (MasterAddress_init "node1") false))
      None ["transform"] (Some ["--conf"; "spark.driver.memory=2g"])
    = before ++ "--" :: ["transform"] /\
    adjacent "--conf" "spark.driver.maxResultSize=0" before.
Proof.
  apply (defaults_survive_overrides (fun _ _ _ => 0%Z) (fun _ => 0%Z)
           (MasterAddress_init "node1") None ["transform"] "127.0.0.1" 8080%Z
           None (Some ["--conf"; "spark.driver.memory=2g"]) None false false None
           None None adam_tool _
           (nested_docker_params (MasterAddress_init "node1"))).
  left. left. reflexivity.
Defined.

(** ** Outcomes and the number of runs *)

(** X14: the result of [call_mango_browser] never depends on the exit status
    of its container: it returns normally exactly when the credentials check
    and the memory/overrides check pass, and never raises the failure of a
    run. *)
Theorem browser_result_ignores_exit_status de de' mi args host port mem ov wd
    run_local run_mac ak sk :
  fst (run (call_mango_browser de mi args host port mem ov wd run_local run_mac
              ak sk))
  = fst (run (call_mango_browser de' mi args host port mem ov wd run_local run_mac
                ak sk)) /\
  (fst (run (call_mango_browser de mi args host port mem ov wd run_local run_mac
               ak sk)) = inr tt
   <-> creds_ok ak sk && exactly_one mem ov = true) /\
  (forall rc,
     fst (run (call_mango_browser de mi args host port mem ov wd run_local run_mac
                 ak sk)) <> inl (CalledProcessError rc)).
Proof.
  unfold run. rewrite !call_mango_browser_run. cbv zeta.
  destruct (creds_ok ak sk), (exactly_one mem ov); simpl;
    (split; [reflexivity|]);
    (split; [split; intros H; first [reflexivity | discriminate H]
            | intros rc H; discriminate H]).
Qed.

(** X15: a wrapper starts at most one container: exactly one when its checks
    pass ([call_adam]: and no native path is given), none otherwise. *)
Theorem container_runs_per_call de pe master_ip mi src dst args host port mem ov
    wd run_local run_mac native ak sk :
  List.length (docker_calls (snd (run (call_conductor de master_ip src dst mem ov))))
  = b2n (exactly_one mem ov) /\
  List.length (docker_calls (snd (run (call_adam de pe master_ip args mem ov run_local
                                    native))))
  = b2n (negb (is_some native) && exactly_one mem ov) /\
  List.length (docker_calls (snd (run (call_deca de mi args mem ov wd run_local ak sk))))
  = b2n (creds_ok ak sk && exactly_one mem ov) /\
  List.length (docker_calls (snd (run (call_mango_browser de mi args host port mem ov
                                    wd run_local run_mac ak sk))))
  = b2n (creds_ok ak sk && exactly_one mem ov) /\
  List.length (docker_calls (snd (run (call_mango_notebook de mi args host port mem ov
                                    wd run_local run_mac ak sk))))
  = b2n (creds_ok ak sk && exactly_one mem ov).
Proof.
  unfold run.
  rewrite call_conductor_run, call_adam_run, call_deca_run,
    call_mango_browser_run, call_mango_notebook_run. cbv zeta.
  destruct native as [path|], (creds_ok ak sk), (exactly_one mem ov); simpl;
    repeat split; destruct (Z.eqb _ 0); reflexivity.
Qed.

(** X16: [call_conductor] adds no flag of its own: after the memory entries
    or overrides and the leader entries comes the separator at once, followed
    by [-C], the source and the destination, which end the list. *)
Theorem conductor_copy_arguments de master_ip src dst mem ov tool ps dps
    (Hcall : In (tool, ps, dps)
               (docker_calls (snd (run (call_conductor de master_ip src dst mem
                                          ov))))) :
  ps = leading_conf mem ov
       ++ (if String.eqb (nominal master_ip) "" then [] else master_conf (Some master_ip))
       ++ ["--"; "-C"; src; dst].
Proof.
  apply conductor_call_shape in Hcall. destruct Hcall as (_ & _ & -> & _).
  unfold assembled. simpl master_truthy.
  destruct (String.eqb (nominal master_ip) ""); reflexivity.
Qed.

Lemma conductor_copy_arguments_witness :
  assembled (Some (MasterAddress_init "node1")) [] None ["-C"; "s3://a"; "hdfs://b"]
    (Some ["--conf"; "spark.driver.memory=2g"])
  = ["--conf"; "spark.driver.memory=2g"]
    ++ master_conf (Some (MasterAddress_init "node1"))
    ++ ["--"; "-C"; "s3://a"; "hdfs://b"].
Proof.
  apply (conductor_copy_arguments (fun _ _ _ => 0%Z) (MasterAddress_init "node1")
           "s3://a" "hdfs://b" None (Some ["--conf"; "spark.driver.memory=2g"])
           conductor_tool _ (nested_docker_params (MasterAddress_init "node1"))).
  left. reflexivity.
Defined.
